(** * Kaprekar's Constant Explorer: the validator and the engine

    A shallow embedding of [kaprekar_explorer.py].  Python integers are
    unbounded, so they are [Z]; a Python [str] is a [string], read as a
    sequence of code points below 256; the list of one-character strings
    that [sorted] and [list] return is a [list ascii].  A raised exception
    is a value of [result].  The console rendering ([rich]'s panels, tables
    and progress spinner) takes no part in what the functions return and is
    left out. *)

From Stdlib Require Import ZArith NArith List Ascii String Bool Lia.
From Stdlib Require Import DecimalString DecimalZ.
From Stdlib Require Import Permutation.
From Equations Require Import Equations.
Import ListNotations.

Local Open Scope Z_scope.

(** ** Exceptions *)

Inductive exn : Type := ValueError.

Inductive result (A : Type) : Type :=
| Ok (a : A)
| Raise (e : exn).

Arguments Ok {A} a.
Arguments Raise {A} e.

Definition bind {A B : Type} (r : result A) (k : A -> result B) : result B :=
  match r with
  | Ok a => k a
  | Raise e => Raise e
  end.

Notation "x <- r ;; k" := (bind r (fun x => k))
  (at level 61, r at next level, right associativity).

(** ** The built-ins the program calls *)

Module Py.

(** [str(n)] for an integer: the decimal numeral, with a minus sign for a
    negative number and no leading zero. *)
Definition str (n : Z) : string := NilZero.string_of_int (Z.to_int n).

Fixpoint zeros (k : nat) (s : string) : string :=
  match k with
  | O => s
  | S k' => String "0" (zeros k' s)
  end.

(** [s.zfill(width)]: zeros on the left up to [width] characters, after
    the sign when [s] starts with one. *)
Definition zfill (width : nat) (s : string) : string :=
  let fill := (width - String.length s)%nat in
  match s with
  | String c s' =>
      if (Ascii.eqb c "+" || Ascii.eqb c "-")%bool
      then String c (zeros fill s')
      else zeros fill s
  | EmptyString => zeros fill s
  end.

(** [list(s)]: the characters of a string. *)
Definition list (s : string) : Datatypes.list ascii := list_ascii_of_string s.

(** [''.join(l)] for a list of one-character strings. *)
Definition join (l : Datatypes.list ascii) : string := string_of_list_ascii l.

(** Characters compare by code point. *)
Definition char_le (a b : ascii) : bool := (N_of_ascii a <=? N_of_ascii b)%N.

Fixpoint insert (x : ascii) (l : Datatypes.list ascii) : Datatypes.list ascii :=
  match l with
  | [] => [x]
  | y :: l' => if char_le x y then x :: l else y :: insert x l'
  end.

Fixpoint sort (l : Datatypes.list ascii) : Datatypes.list ascii :=
  match l with
  | [] => []
  | x :: l' => insert x (sort l')
  end.

(** [sorted(s, reverse=r)]: a stable sort of the characters of [s]; with
    [reverse] the input is reversed, sorted and reversed again, which
    keeps equal elements in their original order. *)
Definition sorted (s : string) (reverse : bool) : Datatypes.list ascii :=
  if reverse then rev (sort (rev (list s))) else sort (list s).

(** [set(l)] keeps one copy of every element; [len] counts. *)
Definition set (l : Datatypes.list ascii) : Datatypes.list ascii :=
  nodup ascii_dec l.

Definition len {A : Type} (l : Datatypes.list A) : Z := Z.of_nat (List.length l).

(** White space as [int] strips it: the six ASCII blanks, and of the
    code points from 128 to 255 the two Unicode spaces U+0085 and
    U+00A0. *)
Definition isspace (c : ascii) : bool :=
  let n := N_of_ascii c in
  (((9 <=? n) && (n <=? 13)) || (n =? 32) || (n =? 133) || (n =? 160))%N.

Definition digit (c : ascii) : option (Decimal.uint -> Decimal.uint) :=
  match c with
  | "0" => Some Decimal.D0
  | "1" => Some Decimal.D1
  | "2" => Some Decimal.D2
  | "3" => Some Decimal.D3
  | "4" => Some Decimal.D4
  | "5" => Some Decimal.D5
  | "6" => Some Decimal.D6
  | "7" => Some Decimal.D7
  | "8" => Some Decimal.D8
  | "9" => Some Decimal.D9
  | _ => None
  end%char.

Definition is_underscore (c : ascii) : bool := Ascii.eqb c "_".

Fixpoint lstrip (s : string) : string :=
  match s with
  | String c s' => if isspace c then lstrip s' else s
  | EmptyString => EmptyString
  end.

Fixpoint all_space (s : string) : bool :=
  match s with
  | String c s' => isspace c && all_space s'
  | EmptyString => true
  end.

(** The digits of the literal, with single underscores allowed between
    two digits: reads digits and underscores from the front of [s] and
    returns the numeral with what follows it; [None] on two underscores
    in a row or an underscore at the end.  [prev_us] tells that the
    character before [s] was an underscore. *)
Fixpoint scan (prev_us : bool) (s : string) : option (Decimal.uint * string) :=
  match s with
  | String c s' =>
      if is_underscore c
      then if prev_us then None else scan true s'
      else match digit c with
           | Some D =>
               match scan false s' with
               | Some (d, rest) => Some (D d, rest)
               | None => None
               end
           | None => if prev_us then None else Some (Decimal.Nil, s)
           end
  | EmptyString => if prev_us then None else Some (Decimal.Nil, s)
  end.

(** The literal after the leading white space and the sign. *)
Definition magnitude (s : string) : result Z :=
  match s with
  | String c _ =>
      if is_underscore c then Raise ValueError
      else match scan false s with
           | Some (Decimal.Nil, _) => Raise ValueError
           | Some (d, rest) =>
               if all_space rest then Ok (Z.of_uint d) else Raise ValueError
           | None => Raise ValueError
           end
  | EmptyString => Raise ValueError
  end.

(** [int(s)] in base 10: white space around, an optional sign, digits
    with single underscores between them; anything else raises
    [ValueError].  The interpreter's optional cap on the length of the
    numeral is not modelled. *)
Definition int (s : string) : result Z :=
  match lstrip s with
  | String "+" s' => magnitude s'
  | String "-" s' => m <- magnitude s' ;; Ok (- m)
  | s' => magnitude s'
  end.

End Py.

(** ** The program *)

(** The three components of [validate_input]'s result:
    [(is_valid, error_message, number)]. *)
Definition validation : Type := bool * option string * option Z.

Definition validate_input (number_str : string) : validation :=
  match Py.int number_str with
  | Raise ValueError => (false, Some "Input must be a valid number"%string, None)
  | Ok number =>
      if (number <? 1000) || (number >? 9999)
      then (false, Some "Number must be exactly 4 digits"%string, None)
      else
        let digits := Py.list (Py.zfill 4 (Py.str number)) in
        if negb (Py.len (Py.set digits) =? 4)
        then (false,
              Some "All 4 digits must be different (no repeated digits)"%string,
              None)
        else (true, None, Some number)
  end.

Definition kaprekar_step (number : Z) : result Z :=
  let number_str := Py.zfill 4 (Py.str number) in
  let digits_desc := Py.sorted number_str true in
  A <- Py.int (Py.join digits_desc) ;;
  let digits_asc := Py.sorted number_str false in
  B <- Py.int (Py.join digits_asc) ;;
  Ok (A - B).

(** The variables of [explore_kaprekar] that its loop reads and writes. *)
Record loop_state : Type := LoopState {
  sequence : list Z;
  current_number : Z;
  steps : Z
}.

(** One pass through the loop body, past the test for the constant. *)
Definition advance (st : loop_state) (next_number : Z) : loop_state :=
  {| sequence := sequence st ++ [next_number];
     current_number := next_number;
     steps := steps st + 1 |}.

(** The state before the loop: [sequence = [starting_number]],
    [current_number = starting_number], [steps = 0]. *)
Definition initial (starting_number : Z) : loop_state :=
  {| sequence := [starting_number];
     current_number := starting_number;
     steps := 0 |}.

(** [while steps < max_steps: ...], with its [break].  Every pass adds one
    to [steps], so [max_steps - steps] decreases. *)
Equations? while_loop (max_steps : Z) (st : loop_state) : result loop_state
  by wf (Z.to_nat (max_steps - steps st)) lt :=
  while_loop max_steps st with Z_lt_dec (steps st) max_steps := {
    | right _ => Ok st
    | left _ with current_number st =? 6174 := {
        | true => Ok st
        | false with kaprekar_step (current_number st) := {
            | Raise e => Raise e
            | Ok next_number => while_loop max_steps (advance st next_number)
          }
      }
  }.
Proof. simpl. lia. Qed.

(** The result is the tuple [(steps, sequence, reached_constant)]. *)
Definition explore_kaprekar (starting_number : Z) (max_steps : Z)
  : result (Z * list Z * bool) :=
  st' <- while_loop max_steps (initial starting_number) ;;
  let reached_constant := current_number st' =? 6174 in
  Ok (steps st', sequence st', reached_constant).

(** ** The vocabulary of the specification *)

(** The validator's three failures are the three error tuples. *)
Definition NotANumber : validation :=
  (false, Some "Input must be a valid number"%string, None).
Definition WrongDigitCount : validation :=
  (false, Some "Number must be exactly 4 digits"%string, None).
Definition RepeatedDigits : validation :=
  (false, Some "All 4 digits must be different (no repeated digits)"%string, None).
Definition Accepted (v : Z) : validation := (true, None, Some v).

(** The outcome of a run is its [reached_constant] flag. *)
Inductive outcome : Type := Converged | StepLimitReached.

Definition outcome_of (reached_constant : bool) : outcome :=
  if reached_constant then Converged else StepLimitReached.

(** The four decimal digits of a number below 10000, thousands first. *)
Definition decimal_digits (v : Z) : list Z :=
  [v / 1000 mod 10; v / 100 mod 10; v / 10 mod 10; v mod 10].

(** Every element after the first is the step transform of the one
    before it. *)
Definition each_follows (l : list Z) : Prop :=
  forall (i : nat) (x y : Z),
    nth_error l i = Some x -> nth_error l (S i) = Some y ->
    kaprekar_step x = Ok y.

(** [k] applications of the step transform. *)
Fixpoint iterate_step (k : nat) (n : Z) : result Z :=
  match k with
  | O => Ok n
  | S k' => m <- kaprekar_step n ;; iterate_step k' m
  end.

(** ** Auxiliary definitions *)

(** [P] on every number from 0 up to [n - 1]. *)
Fixpoint forall_below (P : Z -> bool) (n : nat) : bool :=
  match n with
  | O => true
  | S k => P (Z.of_nat k) && forall_below P k
  end.

(** Pairwise distinctness of a list of integers, as a test. *)
Fixpoint distinctb (l : list Z) : bool :=
  match l with
  | [] => true
  | x :: l' => negb (existsb (Z.eqb x) l') && distinctb l'
  end.

(** On a four-digit number, the test on the set of characters of the
    padded numeral says whether the four decimal digits are distinct. *)
Definition digit_test_agrees (v : Z) : bool :=
  (v <? 1000) ||
  Bool.eqb (Py.len (Py.set (Py.list (Py.zfill 4 (Py.str v)))) =? 4)
           (distinctb (decimal_digits v)).

(** On a number below 10000, both arrangements of the padded digits
    parse, the descending one is at least the ascending one, and their
    difference is at most 9999. *)
Definition step_in_range (n : Z) : bool :=
  let number_str := Py.zfill 4 (Py.str n) in
  match Py.int (Py.join (Py.sorted number_str true)),
        Py.int (Py.join (Py.sorted number_str false)) with
  | Ok A, Ok B => (B <=? A) && (A - B <=? 9999)
  | _, _ => false
  end.

(** The sequence starts with the starting number, is a chain of steps,
    ends with [current_number], and has one element more than [steps]. *)
Definition run_invariant (starting_number : Z) (st : loop_state) : Prop :=
  hd_error (sequence st) = Some starting_number /\
  each_follows (sequence st) /\
  (exists l, sequence st = l ++ [current_number st]) /\
  Py.len (sequence st) = steps st + 1.

(** While the current number stays below 10000 no step can raise, and
    [steps] never passes a non-negative [max_steps]. *)
Definition bounded_invariant (max_steps : Z) (st : loop_state) : Prop :=
  0 <= current_number st <= 9999 /\
  steps st <= max_steps /\
  Py.len (sequence st) = steps st + 1.

(** ** Further definitions *)

(** One of the ten characters [int] reads as a digit. *)
Definition is_digit (c : ascii) : bool :=
  match Py.digit c with
  | Some _ => true
  | None => false
  end.

(** Where the digits of a literal end: at the end of the text, or before
    a character that is neither a digit nor an underscore. *)
Definition literal_stops (rest : string) : Prop :=
  match rest with
  | EmptyString => True
  | String c _ => Py.is_underscore c = false /\ Py.digit c = None
  end.

(** The number a list of digits writes, most significant digit first. *)
Definition digits_value (l : list Z) : Z :=
  fold_left (fun acc d => 10 * acc + d) l 0.

(** The digits of [l] from 9 down to 0, each as often as it occurs. *)
Definition descending (l : list Z) : list Z :=
  flat_map (fun d => repeat d (count_occ Z.eq_dec l d))
           [9; 8; 7; 6; 5; 4; 3; 2; 1; 0].

(** The step transform by arithmetic on the four decimal digits: the
    largest arrangement minus the smallest. *)
Definition arithmetic_step (n : Z) : Z :=
  digits_value (descending (decimal_digits n))
  - digits_value (rev (descending (decimal_digits n))).

(** All four decimal digits are the same. *)
Definition same_digits (v : Z) : bool :=
  forallb (Z.eqb (v mod 10)) (decimal_digits v).

(** The values the step transform takes on the numbers below 10000. *)
Definition step_image : list Z :=
  [9801; 9711; 8712; 9621; 8622; 7623; 9531; 8532; 7533; 6534; 9441; 8442;
   7443; 6444; 5445; 9351; 8352; 7353; 6354; 5355; 4356; 9261; 8262; 7263;
   6264; 5265; 4266; 3267; 9171; 8172; 7173; 6174; 5175; 4176; 3177; 2178;
   9081; 8082; 7083; 6084; 5085; 4086; 3087; 2088; 1089; 8991; 7992; 6993;
   5994; 4995; 3996; 2997; 1998; 999; 0].

(** What one step does to a number below 10000: it agrees with the
    arithmetic on the digits, lands in [step_image], gives 0 exactly on
    four equal digits, and fixes only 0 and 6174. *)
Definition step_facts (n : Z) : bool :=
  match kaprekar_step n with
  | Ok r =>
      (r =? arithmetic_step n)
      && existsb (Z.eqb r) step_image
      && Bool.eqb (r =? 0) (same_digits n)
      && (negb (r =? n) || (n =? 0) || (n =? 6174))
  | Raise _ => false
  end.

(** Zero, or at most six steps away from 6174. *)
Definition reaches_constant (r : Z) : bool :=
  (r =? 0) ||
  match iterate_step 6 r with
  | Ok m => m =? 6174
  | Raise _ => false
  end.

(** [max_steps=50], the default of [explore_kaprekar], which [main] uses. *)
Definition default_max_steps : Z := 50.



Section Display.

(** [" ... KAPREKAR'S CONSTANT!"], the text [display_results] appends to
    the last equation of a run that converged.  It starts with an emoji, a
    code point above 255, so the text is a parameter of the rows. *)
Variable constant_marker : string.




End Display.

(** ** The loop *)

Lemma explore_kaprekar_unfold (starting_number max_steps : Z) :
  explore_kaprekar starting_number max_steps =
  (st' <- while_loop max_steps (initial starting_number) ;;
   Ok (steps st', sequence st', current_number st' =? 6174)).
Proof. reflexivity. Qed.

Lemma while_loop_exit (max_steps : Z) (st : loop_state) :
  max_steps <= steps st -> while_loop max_steps st = Ok st.
Proof.
  intros Hle. rewrite while_loop_equation_1.
  destruct (Z_lt_dec (steps st) max_steps) as [Hlt | Hge].
  - lia.
  - now rewrite while_loop_clause_1_equation_2.
Qed.

Lemma while_loop_break (max_steps : Z) (st : loop_state) :
  current_number st = 6174 -> while_loop max_steps st = Ok st.
Proof.
  intros Hc. rewrite while_loop_equation_1.
  destruct (Z_lt_dec (steps st) max_steps) as [Hlt | Hge].
  - rewrite while_loop_clause_1_equation_1, Hc. reflexivity.
  - now rewrite while_loop_clause_1_equation_2.
Qed.

Lemma while_loop_pass (max_steps : Z) (st : loop_state) (next_number : Z) :
  steps st < max_steps ->
  current_number st <> 6174 ->
  kaprekar_step (current_number st) = Ok next_number ->
  while_loop max_steps st = while_loop max_steps (advance st next_number).
Proof.
  intros Hlt Hc Hstep. rewrite while_loop_equation_1.
  destruct (Z_lt_dec (steps st) max_steps) as [Hlt' | Hge]; [ | lia ].
  rewrite while_loop_clause_1_equation_1.
  apply Z.eqb_neq in Hc. rewrite Hc.
  rewrite while_loop_clause_1_clause_2_equation_2, Hstep.
  now rewrite while_loop_clause_1_clause_2_clause_2_equation_1.
Qed.

(** A property that every pass of the loop preserves holds of the state
    the loop ends in, where moreover the guard is false or the constant
    has been reached. *)
Lemma while_loop_invariant (Inv : loop_state -> Prop) (max_steps : Z) :
  (forall st next_number,
      Inv st -> steps st < max_steps -> current_number st <> 6174 ->
      kaprekar_step (current_number st) = Ok next_number ->
      Inv (advance st next_number)) ->
  forall st st',
    Inv st -> while_loop max_steps st = Ok st' ->
    Inv st' /\ (max_steps <= steps st' \/ current_number st' = 6174).
Proof.
  intros Hpass st. funelim (while_loop max_steps st); intros st' Hinv Hret.
  - injection Hret as <-. split; [ assumption | lia ].
  - injection Hret as <-. split; [ assumption | right; now apply Z.eqb_eq ].
  - apply (H Inv Hpass st'); [ | assumption ].
    apply Hpass; try assumption. now apply Z.eqb_neq.
  - discriminate.
Qed.

(** When the invariant also makes the step transform succeed, the loop
    returns. *)
Lemma while_loop_returns (Inv : loop_state -> Prop) (max_steps : Z) :
  (forall st next_number,
      Inv st -> steps st < max_steps -> current_number st <> 6174 ->
      kaprekar_step (current_number st) = Ok next_number ->
      Inv (advance st next_number)) ->
  (forall st,
      Inv st -> steps st < max_steps -> current_number st <> 6174 ->
      exists next_number, kaprekar_step (current_number st) = Ok next_number) ->
  forall st, Inv st -> exists st', while_loop max_steps st = Ok st'.
Proof.
  intros Hpass Hok st. funelim (while_loop max_steps st); intros Hinv.
  - now exists st.
  - now exists st.
  - apply (H Inv Hpass Hok).
    apply Hpass; try assumption. now apply Z.eqb_neq.
  - apply Z.eqb_neq in Heq0.
    destruct (Hok st Hinv l Heq0) as [next_number Hnext]. congruence.
Qed.

(** ** Checking a property on every number below a bound *)

Lemma forall_below_spec (P : Z -> bool) (n : nat) :
  forall_below P n = true ->
  forall v, 0 <= v < Z.of_nat n -> P v = true.
Proof.
  induction n as [ | k IH ]; simpl; intros Hall v Hv.
  - lia.
  - apply andb_prop in Hall as [Hk Hrest].
    destruct (Z.eq_dec v (Z.of_nat k)) as [-> | Hne].
    + exact Hk.
    + apply IH; [ exact Hrest | lia ].
Qed.

Lemma distinctb_spec (l : list Z) : distinctb l = true <-> NoDup l.
Proof.
  induction l as [ | x l IH ]; simpl.
  - split; [ constructor | reflexivity ].
  - rewrite andb_true_iff, negb_true_iff, IH. split.
    + intros [Hx Hl]. constructor; [ | exact Hl ].
      intros Hin. apply not_true_iff_false in Hx. apply Hx.
      apply existsb_exists. exists x. split; [ exact Hin | apply Z.eqb_refl ].
    + intros Hnd. inversion Hnd as [ | ? ? Hx Hl ]; subst. split; [ | exact Hl ].
      apply not_true_iff_false. intros Hex.
      apply existsb_exists in Hex as [y [Hin Heq]].
      apply Z.eqb_eq in Heq. subst y. now apply Hx.
Qed.

(** ** The validator's digit test *)

Lemma digit_test_all : forall_below digit_test_agrees (Z.to_nat 10000) = true.
Proof. vm_compute. reflexivity. Qed.

Lemma digit_test (v : Z) :
  1000 <= v <= 9999 ->
  (Py.len (Py.set (Py.list (Py.zfill 4 (Py.str v)))) =? 4) = true
  <-> NoDup (decimal_digits v).
Proof.
  intros Hv. rewrite <- distinctb_spec.
  assert (Hall : digit_test_agrees v = true).
  { apply (forall_below_spec _ _ digit_test_all). lia. }
  unfold digit_test_agrees in Hall.
  apply orb_prop in Hall as [Hlt | Heq].
  - apply Z.ltb_lt in Hlt. lia.
  - apply Bool.eqb_prop in Heq. rewrite Heq. reflexivity.
Qed.

(** ** What one step returns on the numbers below 10000 *)

Lemma step_in_range_all : forall_below step_in_range (Z.to_nat 10000) = true.
Proof. vm_compute. reflexivity. Qed.

Lemma kaprekar_step_sorted_values (n : Z) :
  0 <= n <= 9999 ->
  exists A B,
    Py.int (Py.join (Py.sorted (Py.zfill 4 (Py.str n)) true)) = Ok A /\
    Py.int (Py.join (Py.sorted (Py.zfill 4 (Py.str n)) false)) = Ok B /\
    B <= A /\ A - B <= 9999.
Proof.
  intros Hn.
  assert (Hall : step_in_range n = true).
  { apply (forall_below_spec _ _ step_in_range_all). lia. }
  unfold step_in_range in Hall.
  destruct (Py.int (Py.join (Py.sorted (Py.zfill 4 (Py.str n)) true)))
    as [A | ]; [ | discriminate ].
  destruct (Py.int (Py.join (Py.sorted (Py.zfill 4 (Py.str n)) false)))
    as [B | ]; [ | discriminate ].
  apply andb_prop in Hall as [HBA Hhi].
  apply Z.leb_le in HBA. apply Z.leb_le in Hhi.
  exists A, B. repeat split; assumption.
Qed.

Lemma kaprekar_step_range (n : Z) :
  0 <= n <= 9999 ->
  exists r, kaprekar_step n = Ok r /\ 0 <= r <= 9999.
Proof.
  intros Hn.
  destruct (kaprekar_step_sorted_values n Hn) as (A & B & HA & HB & HBA & Hhi).
  exists (A - B). unfold kaprekar_step. rewrite HA, HB. simpl.
  split; [ reflexivity | lia ].
Qed.

(** ** [int] reads back what [str] prints *)

Lemma scan_numeral (d : Decimal.uint) :
  Py.scan false (NilEmpty.string_of_uint d) = Some (d, EmptyString).
Proof.
  induction d as [ | d IH | d IH | d IH | d IH | d IH | d IH | d IH | d IH
                   | d IH | d IH ]; simpl; try rewrite IH; reflexivity.
Qed.

Lemma int_numeral (d : Decimal.uint) :
  d <> Decimal.Nil ->
  Py.int (NilEmpty.string_of_uint d) = Ok (Z.of_uint d) /\
  Py.int (String "-" (NilEmpty.string_of_uint d)) = Ok (- Z.of_uint d).
Proof.
  intros Hd.
  destruct d as [ | d | d | d | d | d | d | d | d | d | d ];
    [ contradiction | .. ];
    unfold Py.int; simpl; rewrite scan_numeral; simpl; split; reflexivity.
Qed.

Lemma int_str (v : Z) : Py.int (Py.str v) = Ok v.
Proof.
  unfold Py.str. rewrite <- (DecimalZ.of_to v) at 2.
  destruct v as [ | p | p ]; simpl Z.to_int.
  - reflexivity.
  - pose proof (DecimalPos.Unsigned.to_uint_nonnil p) as Hnn.
    destruct (int_numeral _ Hnn) as [Hpos _].
    unfold NilZero.string_of_int, NilZero.string_of_uint.
    destruct (Pos.to_uint p); [ contradiction | exact Hpos .. ].
  - pose proof (DecimalPos.Unsigned.to_uint_nonnil p) as Hnn.
    destruct (int_numeral _ Hnn) as [_ Hneg].
    unfold NilZero.string_of_int, NilZero.string_of_uint.
    destruct (Pos.to_uint p); [ contradiction | exact Hneg .. ].
Qed.

(** ** What a run keeps true *)

Lemma each_follows_snoc (l : list Z) (c n : Z) :
  each_follows (l ++ [c]) ->
  kaprekar_step c = Ok n ->
  each_follows ((l ++ [c]) ++ [n]).
Proof.
  intros Hl Hstep i x y Hx Hy.
  assert (Hlen : List.length (l ++ [c]) = S (List.length l)).
  { rewrite length_app. simpl. lia. }
  destruct (Nat.lt_ge_cases (S i) (List.length (l ++ [c]))) as [Hin | Hout].
  - rewrite nth_error_app1 in Hx by lia.
    rewrite nth_error_app1 in Hy by lia.
    exact (Hl i x y Hx Hy).
  - rewrite nth_error_app2 in Hy by lia.
    destruct (S i - List.length (l ++ [c]))%nat as [ | k ] eqn:Hk.
    + assert (Hi : i = List.length l) by lia. subst i.
      rewrite nth_error_app1 in Hx by lia.
      rewrite nth_error_app2 in Hx by lia.
      rewrite Nat.sub_diag in Hx. simpl in Hx, Hy. congruence.
    + destruct k; discriminate.
Qed.

Lemma run_invariant_initial (starting_number : Z) :
  run_invariant starting_number (initial starting_number).
Proof.
  repeat split.
  - intros [ | i ] x y Hx Hy; simpl in Hy; [ discriminate | ].
    destruct i; discriminate.
  - now exists [].
Qed.

Lemma run_invariant_advance (starting_number : Z) (st : loop_state) (n : Z) :
  run_invariant starting_number st ->
  kaprekar_step (current_number st) = Ok n ->
  run_invariant starting_number (advance st n).
Proof.
  intros (Hhd & Hchain & [l Hl] & Hlen) Hstep. unfold advance; simpl.
  repeat split.
  - destruct (sequence st); [ discriminate | exact Hhd ].
  - rewrite Hl in *. now apply each_follows_snoc.
  - now exists (sequence st).
  - unfold Py.len in *. simpl. rewrite length_app. simpl. lia.
Qed.

Lemma run_invariant_final (starting_number max_steps : Z) (st' : loop_state) :
  while_loop max_steps (initial starting_number) = Ok st' ->
  run_invariant starting_number st' /\
  (max_steps <= steps st' \/ current_number st' = 6174).
Proof.
  apply (while_loop_invariant (run_invariant starting_number)).
  - intros st n Hinv _ _ Hstep. now apply run_invariant_advance.
  - apply run_invariant_initial.
Qed.

Lemma explore_kaprekar_returned
  (starting_number max_steps n : Z) (l : list Z) (reached : bool) :
  explore_kaprekar starting_number max_steps = Ok (n, l, reached) ->
  exists st',
    while_loop max_steps (initial starting_number) = Ok st' /\
    n = steps st' /\ l = sequence st' /\
    reached = (current_number st' =? 6174).
Proof.
  rewrite explore_kaprekar_unfold.
  destruct (while_loop max_steps (initial starting_number)) as [st' | e];
    simpl; intros Hret; [ | discriminate ].
  injection Hret as <- <- <-. now exists st'.
Qed.

Lemma bounded_run (starting_number max_steps : Z) :
  0 <= starting_number <= 9999 ->
  0 <= max_steps ->
  exists st',
    while_loop max_steps (initial starting_number) = Ok st' /\
    bounded_invariant max_steps st'.
Proof.
  intros Hstart Hmax.
  assert (Hpass : forall st n,
             bounded_invariant max_steps st -> steps st < max_steps ->
             current_number st <> 6174 ->
             kaprekar_step (current_number st) = Ok n ->
             bounded_invariant max_steps (advance st n)).
  { intros st n (Hcur & Hsteps & Hlen) Hlt _ Hstep.
    destruct (kaprekar_step_range _ Hcur) as (r & Hr & Hrange).
    assert (n = r) by congruence. subst r.
    unfold bounded_invariant, advance, Py.len in *; simpl.
    rewrite length_app. simpl. lia. }
  assert (Hinit : bounded_invariant max_steps (initial starting_number)).
  { unfold bounded_invariant, initial, Py.len; simpl. lia. }
  destruct (while_loop_returns (bounded_invariant max_steps) max_steps Hpass)
    with (st := initial starting_number) as [st' Hst'].
  - intros st (Hcur & _) _ _.
    destruct (kaprekar_step_range _ Hcur) as (r & Hr & _). now exists r.
  - exact Hinit.
  - exists st'. split; [ exact Hst' | ].
    now apply (while_loop_invariant (bounded_invariant max_steps) max_steps
                 Hpass (initial starting_number) st').
Qed.

Lemma validate_input_accepted (number_str : string) (v : Z) :
  validate_input number_str = Accepted v ->
  Py.int number_str = Ok v /\ 1000 <= v <= 9999.
Proof.
  unfold validate_input, Accepted.
  destruct (Py.int number_str) as [number | [] ]; [ | discriminate ].
  destruct ((number <? 1000) || (number >? 9999)) eqn:Hrange; [ discriminate | ].
  destruct (negb _); [ discriminate | ].
  intros Heq. injection Heq as <-.
  apply orb_false_elim in Hrange as [Hlo Hhi].
  apply Z.ltb_ge in Hlo. rewrite Z.gtb_ltb in Hhi. apply Z.ltb_ge in Hhi.
  split; [ reflexivity | lia ].
Qed.

(** ** The claims *)

(** C1, as stated: [explore(3524, 50)] would take 5 steps through
    [3524, 3087, 8352, 8532, 6174].  The run does not return that: 8532 is
    the descending arrangement of 8352, not an element of the sequence. *)
Lemma explore_3524_is_not_five_steps :
  explore_kaprekar 3524 50 <> Ok (5, [3524; 3087; 8352; 8532; 6174], true).
Proof. vm_compute. discriminate. Qed.

(** C1, amended: [explore(3524, 50)] converges to 6174 in exactly 3 steps
    and returns the sequence [3524, 3087, 8352, 6174]. *)
Theorem explore_3524_three_steps :
  explore_kaprekar 3524 50 = Ok (3, [3524; 3087; 8352; 6174], true) /\
  outcome_of true = Converged.
Proof. split; vm_compute; reflexivity. Qed.

(** C2: the validator fails with NotANumber when the text does not parse
    as an integer, with WrongDigitCount when it parses to a value below
    1000 or above 9999, and with RepeatedDigits when it parses to a value
    from 1000 to 9999 with a repeated digit; an earlier failure wins
    whatever the later checks would say. *)
Theorem validate_input_failures (number_str : string) :
  (Py.int number_str = Raise ValueError ->
   validate_input number_str = NotANumber) /\
  (forall v, Py.int number_str = Ok v -> v < 1000 \/ v > 9999 ->
             validate_input number_str = WrongDigitCount) /\
  (forall v, Py.int number_str = Ok v -> 1000 <= v <= 9999 ->
             ~ NoDup (decimal_digits v) ->
             validate_input number_str = RepeatedDigits).
Proof.
  unfold validate_input. repeat split.
  - intros ->. reflexivity.
  - intros v -> Hv.
    assert (Hrange : (v <? 1000) || (v >? 9999) = true).
    { apply orb_true_iff. rewrite Z.gtb_ltb, !Z.ltb_lt. lia. }
    rewrite Hrange. reflexivity.
  - intros v -> Hv Hdup.
    assert (Hrange : (v <? 1000) || (v >? 9999) = false).
    { apply orb_false_iff. rewrite Z.gtb_ltb, !Z.ltb_ge. lia. }
    rewrite Hrange.
    destruct (Py.len (Py.set (Py.list (Py.zfill 4 (Py.str v)))) =? 4) eqn:Htest.
    + exfalso. apply Hdup. now apply digit_test.
    + reflexivity.
Qed.

Lemma validate_input_failures_witness :
  validate_input "12a" = NotANumber /\
  validate_input "-42" = WrongDigitCount /\
  validate_input "12345" = WrongDigitCount /\
  validate_input "1123" = RepeatedDigits.
Proof.
  split; [ | split; [ | split ] ].
  - apply (validate_input_failures "12a"). reflexivity.
  - apply (validate_input_failures "-42") with (v := -42);
      [ reflexivity | lia ].
  - apply (validate_input_failures "12345") with (v := 12345);
      [ reflexivity | lia ].
  - apply (validate_input_failures "1123") with (v := 1123);
      [ reflexivity | lia | ].
    intros Hnd. apply distinctb_spec in Hnd. discriminate.
Defined.

(** C3: for every v from 1000 to 9999 whose four decimal digits are
    pairwise distinct, the validator accepts the numeral of v and returns
    v itself. *)
Theorem validate_input_accepts (v : Z) :
  1000 <= v <= 9999 ->
  NoDup (decimal_digits v) ->
  validate_input (Py.str v) = Accepted v.
Proof.
  intros Hv Hnd. unfold validate_input. rewrite int_str.
  assert (Hrange : (v <? 1000) || (v >? 9999) = false).
  { apply orb_false_iff. rewrite Z.gtb_ltb, !Z.ltb_ge. lia. }
  rewrite Hrange.
  apply (digit_test v Hv) in Hnd. rewrite Hnd. reflexivity.
Qed.

Lemma validate_input_accepts_witness :
  Py.str 3524 = "3524"%string /\ validate_input (Py.str 3524) = Accepted 3524.
Proof.
  split; [ reflexivity | ].
  apply (validate_input_accepts 3524); [ lia | ].
  apply distinctb_spec. reflexivity.
Defined.

(** C4: [explore(6174, 50)] returns the sequence [6174], Converged and 0
    steps; whenever the current number is 6174 the loop stops at once and
    leaves the step count as it is. *)
Theorem explore_6174_immediate :
  explore_kaprekar 6174 50 = Ok (0, [6174], true) /\
  outcome_of true = Converged /\
  (forall max_steps st,
      current_number st = 6174 -> while_loop max_steps st = Ok st).
Proof.
  split; [ vm_compute; reflexivity | ].
  split; [ reflexivity | ].
  intros max_steps st. apply while_loop_break.
Qed.

(** C5: in every run that returns, the sequence begins with the starting
    number, every later element is [kaprekar_step] of the one before it,
    and the step count is [len(sequence) - 1]. *)
Theorem explore_sequence_shape
  (starting_number max_steps n : Z) (l : list Z) (reached : bool) :
  explore_kaprekar starting_number max_steps = Ok (n, l, reached) ->
  hd_error l = Some starting_number /\
  each_follows l /\
  n = Py.len l - 1.
Proof.
  intros Hret.
  apply explore_kaprekar_returned in Hret as (st' & Hloop & -> & -> & _).
  apply run_invariant_final in Hloop as [(Hhd & Hchain & _ & Hlen) _].
  repeat split; [ exact Hhd | exact Hchain | lia ].
Qed.

Lemma explore_sequence_shape_witness :
  hd_error [3524; 3087; 8352; 6174] = Some 3524 /\
  each_follows [3524; 3087; 8352; 6174] /\
  3 = Py.len [3524; 3087; 8352; 6174] - 1.
Proof.
  apply (explore_sequence_shape 3524 50 3 [3524; 3087; 8352; 6174] true).
  vm_compute. reflexivity.
Defined.

(** C6: a run that returns reports Converged exactly when the last
    element of its sequence is 6174, and StepLimitReached otherwise. *)
Theorem explore_outcome
  (starting_number max_steps n : Z) (l : list Z) (reached : bool) :
  explore_kaprekar starting_number max_steps = Ok (n, l, reached) ->
  l <> [] /\
  (outcome_of reached = Converged <-> last l 0 = 6174) /\
  (outcome_of reached = StepLimitReached <-> last l 0 <> 6174).
Proof.
  intros Hret.
  apply explore_kaprekar_returned in Hret as (st' & Hloop & _ & -> & ->).
  apply run_invariant_final in Hloop as [(_ & _ & [l Hl] & _) _].
  rewrite Hl, last_last. split.
  - intros Hnil. symmetry in Hnil. now apply app_cons_not_nil in Hnil.
  - destruct (current_number st' =? 6174) eqn:Hc; simpl.
    + apply Z.eqb_eq in Hc. split; split; intros H; congruence.
    + apply Z.eqb_neq in Hc. split; split; intros H; congruence.
Qed.

Lemma explore_outcome_witness :
  [1234; 3087; 8352] <> [] /\
  (outcome_of false = Converged <-> last [1234; 3087; 8352] 0 = 6174) /\
  (outcome_of false = StepLimitReached <-> last [1234; 3087; 8352] 0 <> 6174).
Proof.
  apply (explore_outcome 1234 2 2 [1234; 3087; 8352] false).
  vm_compute. reflexivity.
Defined.

(** C7: 6174 is a fixed point of the step transform (7641 - 1467 = 6174),
    so any number of further steps from 6174 stays at 6174. *)
Theorem kaprekar_step_fixed_point :
  Py.int (Py.join (Py.sorted (Py.zfill 4 (Py.str 6174)) true)) = Ok 7641 /\
  Py.int (Py.join (Py.sorted (Py.zfill 4 (Py.str 6174)) false)) = Ok 1467 /\
  kaprekar_step 6174 = Ok 6174 /\
  (forall k, iterate_step k 6174 = Ok 6174).
Proof.
  assert (Hfix : kaprekar_step 6174 = Ok 6174) by (vm_compute; reflexivity).
  split; [ vm_compute; reflexivity | ].
  split; [ vm_compute; reflexivity | ].
  split; [ exact Hfix | ].
  induction k as [ | k IH ].
  - reflexivity.
  - change (iterate_step (S k) 6174)
      with (m <- kaprekar_step 6174 ;; iterate_step k m).
    rewrite Hfix. exact IH.
Qed.

(** C8: with [max_steps = 0] and a start other than 6174 the loop body
    never runs: the result is StepLimitReached, the sequence [start] and 0
    steps. *)
Theorem explore_zero_steps (starting_number : Z) :
  starting_number <> 6174 ->
  explore_kaprekar starting_number 0 = Ok (0, [starting_number], false) /\
  outcome_of false = StepLimitReached.
Proof.
  intros Hne. split; [ | reflexivity ].
  rewrite explore_kaprekar_unfold, while_loop_exit by (simpl; lia).
  simpl. apply Z.eqb_neq in Hne. rewrite Hne. reflexivity.
Qed.

Lemma explore_zero_steps_witness :
  explore_kaprekar 1234 0 = Ok (0, [1234], false) /\
  outcome_of false = StepLimitReached.
Proof. apply (explore_zero_steps 1234). lia. Defined.

(** C9: from a starting number the validator accepted and with a
    non-negative [max_steps], [explore_kaprekar] returns without raising,
    after at most [max_steps] passes of the loop, a sequence of at most
    [max_steps + 1] elements. *)
Theorem explore_returns
  (number_str : string) (starting_number max_steps : Z) :
  validate_input number_str = Accepted starting_number ->
  0 <= max_steps ->
  exists n l reached,
    explore_kaprekar starting_number max_steps = Ok (n, l, reached) /\
    n <= max_steps /\
    Py.len l <= max_steps + 1.
Proof.
  intros Hvalid Hmax.
  apply validate_input_accepted in Hvalid as [_ Hrange].
  destruct (bounded_run starting_number max_steps) as (st' & Hloop & Hinv);
    [ lia | exact Hmax | ].
  destruct Hinv as (_ & Hsteps & Hlen).
  exists (steps st'), (sequence st'), (current_number st' =? 6174).
  rewrite explore_kaprekar_unfold, Hloop. simpl.
  split; [ reflexivity | lia ].
Qed.

Lemma explore_returns_witness :
  exists n l reached,
    explore_kaprekar 3524 50 = Ok (n, l, reached) /\
    n <= 50 /\ Py.len l <= 50 + 1.
Proof.
  apply (explore_returns "3524" 3524 50); [ reflexivity | lia ].
Defined.

(** C10: for every n from 0 to 9999 the descending arrangement of the
    padded digits is at least the ascending one, and [kaprekar_step n]
    is their difference, between 0 and 9999. *)
Theorem kaprekar_step_stays_in_range (n : Z) :
  0 <= n <= 9999 ->
  exists A B,
    Py.int (Py.join (Py.sorted (Py.zfill 4 (Py.str n)) true)) = Ok A /\
    Py.int (Py.join (Py.sorted (Py.zfill 4 (Py.str n)) false)) = Ok B /\
    B <= A /\
    kaprekar_step n = Ok (A - B) /\
    0 <= A - B <= 9999.
Proof.
  intros Hn.
  destruct (kaprekar_step_sorted_values n Hn) as (A & B & HA & HB & HBA & Hhi).
  exists A, B. unfold kaprekar_step. rewrite HA, HB. simpl.
  repeat split; try reflexivity; lia.
Qed.

Lemma kaprekar_step_stays_in_range_witness :
  exists A B,
    Py.int (Py.join (Py.sorted (Py.zfill 4 (Py.str 1211)) true)) = Ok A /\
    Py.int (Py.join (Py.sorted (Py.zfill 4 (Py.str 1211)) false)) = Ok B /\
    B <= A /\
    kaprekar_step 1211 = Ok (A - B) /\
    0 <= A - B <= 9999.
Proof. apply (kaprekar_step_stays_in_range 1211). lia. Defined.

(** * Beyond the claims *)

(** ** Strings of digits *)

Lemma is_digit_plain (c : ascii) :
  is_digit c = true ->
  Py.isspace c = false /\ Py.is_underscore c = false /\
  Ascii.eqb c "+" = false /\ Ascii.eqb c "-" = false /\
  Py.char_le c "-" = false.
Proof.
  destruct c as [[] [] [] [] [] [] [] []]; intros Hd;
    try discriminate Hd; repeat split; reflexivity.
Qed.

Lemma numeral_digits (d : Decimal.uint) :
  Forall (fun c => is_digit c = true)
         (list_ascii_of_string (NilEmpty.string_of_uint d)).
Proof.
  induction d; simpl; constructor; try reflexivity; assumption.
Qed.

Lemma numeral_not_empty (d : Decimal.uint) :
  d <> Decimal.Nil -> NilEmpty.string_of_uint d <> EmptyString.
Proof. destruct d; intros Hd; [ contradiction | discriminate .. ]. Qed.

Lemma zeros_digits (k : nat) (s : string) :
  Forall (fun c => is_digit c = true) (list_ascii_of_string s) ->
  Forall (fun c => is_digit c = true) (list_ascii_of_string (Py.zeros k s)).
Proof.
  intros Hs. induction k as [ | k IH ]; simpl.
  - exact Hs.
  - constructor; [ reflexivity | exact IH ].
Qed.

Lemma zeros_not_empty (k : nat) (s : string) :
  s <> EmptyString -> Py.zeros k s <> EmptyString.
Proof. intros Hs. destruct k; simpl; [ exact Hs | discriminate ]. Qed.

Lemma insert_digits (x : ascii) (l : list ascii) :
  is_digit x = true ->
  Forall (fun c => is_digit c = true) l ->
  Forall (fun c => is_digit c = true) (Py.insert x l).
Proof.
  intros Hx Hl. induction Hl as [ | y l Hy Hl IH ]; simpl.
  - constructor; [ exact Hx | constructor ].
  - destruct (Py.char_le x y).
    + constructor; [ exact Hx | constructor; assumption ].
    + constructor; assumption.
Qed.

Lemma sort_digits (l : list ascii) :
  Forall (fun c => is_digit c = true) l ->
  Forall (fun c => is_digit c = true) (Py.sort l).
Proof.
  intros Hl. induction Hl as [ | x l Hx Hl IH ]; simpl.
  - constructor.
  - now apply insert_digits.
Qed.

Lemma insert_length (x : ascii) (l : list ascii) :
  List.length (Py.insert x l) = S (List.length l).
Proof.
  induction l as [ | y l IH ]; simpl; [ reflexivity | ].
  destruct (Py.char_le x y); simpl; [ reflexivity | now rewrite IH ].
Qed.

Lemma sort_length (l : list ascii) : List.length (Py.sort l) = List.length l.
Proof.
  induction l as [ | x l IH ]; simpl; [ reflexivity | ].
  now rewrite insert_length, IH.
Qed.

(** A minus sign sorts before every digit. *)
Lemma sort_minus_last (l : list ascii) :
  Forall (fun c => is_digit c = true) l ->
  Py.sort (l ++ ["-"%char]) = "-"%char :: Py.sort l.
Proof.
  intros Hl. induction Hl as [ | x l Hx Hl IH ]; simpl.
  - reflexivity.
  - rewrite IH. simpl.
    destruct (is_digit_plain x Hx) as (_ & _ & _ & _ & Hle).
    now rewrite Hle.
Qed.

(** [int] reads a run of digits up to the place where the literal
    stops. *)
Lemma scan_digits (l : list ascii) (rest : string) :
  Forall (fun c => is_digit c = true) l ->
  literal_stops rest ->
  exists d,
    Py.scan false (string_of_list_ascii l ++ rest) = Some (d, rest) /\
    (l <> [] -> d <> Decimal.Nil).
Proof.
  intros Hl Hrest. induction Hl as [ | c l Hc Hl IH ]; simpl.
  - exists Decimal.Nil. split; [ | congruence ].
    destruct rest as [ | c r ]; simpl; [ reflexivity | ].
    destruct Hrest as [Hus Hd]. now rewrite Hus, Hd.
  - destruct IH as (d & Hscan & _).
    destruct (is_digit_plain c Hc) as (_ & Hus & _).
    rewrite Hus. unfold is_digit in Hc.
    destruct (Py.digit c) as [D | ] eqn:HD; [ | discriminate ].
    rewrite Hscan. exists (D d). split; [ reflexivity | ].
    intros _.
    destruct c as [[] [] [] [] [] [] [] []]; try discriminate HD;
      injection HD as <-; discriminate.
Qed.


Lemma int_digits_then_minus (l : list ascii) :
  l <> [] ->
  Forall (fun c => is_digit c = true) l ->
  Py.int (Py.join (l ++ ["-"%char])) = Raise ValueError.
Proof.
  intros Hne Hl.
  assert (Hstop : literal_stops "-") by (split; reflexivity).
  destruct (scan_digits l "-" Hl Hstop) as (d & Hscan & Hd).
  specialize (Hd Hne).
  assert (Hjoin : Py.join (l ++ ["-"%char]) = (string_of_list_ascii l ++ "-")%string).
  { unfold Py.join. clear. induction l as [ | a l IH ]; simpl;
      [ reflexivity | now rewrite IH ]. }
  rewrite Hjoin.
  destruct l as [ | c l ]; [ contradiction | ].
  inversion Hl as [ | ? ? Hc Hl' ]; subst.
  destruct (is_digit_plain c Hc) as (Hsp & Hus & Hplus & Hminus & _).
  simpl string_of_list_ascii in *. simpl append in *.
  unfold Py.int. simpl Py.lstrip. rewrite Hsp.
  assert (Hmag : Py.magnitude (String c (string_of_list_ascii l ++ "-"))
                 = Raise ValueError).
  { unfold Py.magnitude. rewrite Hus, Hscan.
    destruct d; [ contradiction | reflexivity .. ]. }
  rewrite <- Hmag.
  apply Ascii.eqb_neq in Hplus. apply Ascii.eqb_neq in Hminus.
  destruct c as [[] [] [] [] [] [] [] []]; try reflexivity; congruence.
Qed.


(** The padded numeral of a negative number: a minus sign, then digits. *)
Lemma zfill_str_negative (n : Z) :
  n < 0 ->
  exists l,
    l <> [] /\ Forall (fun c => is_digit c = true) l /\
    Py.list (Py.zfill 4 (Py.str n)) = "-"%char :: l.
Proof.
  intros Hn. destruct n as [ | p | p ]; [ lia | lia | ].
  pose proof (DecimalPos.Unsigned.to_uint_nonnil p) as Hnn.
  assert (Hstr : Py.str (Z.neg p)
                 = String "-" (NilEmpty.string_of_uint (Pos.to_uint p))).
  { unfold Py.str. simpl. unfold NilZero.string_of_uint.
    destruct (Pos.to_uint p); [ contradiction | reflexivity .. ]. }
  rewrite Hstr. unfold Py.zfill.
  set (fill := (4 - String.length _)%nat). simpl.
  exists (list_ascii_of_string
            (Py.zeros fill (NilEmpty.string_of_uint (Pos.to_uint p)))).
  split; [ | split; [ | reflexivity ] ].
  - pose proof (zeros_not_empty fill _ (numeral_not_empty _ Hnn)) as Hz.
    destruct (Py.zeros fill _); [ contradiction | discriminate ].
  - apply zeros_digits, numeral_digits.
Qed.


Lemma kaprekar_step_of_negative (n : Z) :
  n < 0 -> kaprekar_step n = Raise ValueError.
Proof.
  intros Hneg. destruct (zfill_str_negative n Hneg) as (l & Hne & Hdig & Hl).
  unfold kaprekar_step, Py.sorted. rewrite Hl. simpl rev.
  rewrite sort_minus_last by now apply Forall_rev.
  simpl rev. rewrite int_digits_then_minus; [ reflexivity | | ].
  - intros Hnil. apply (f_equal (@List.length ascii)) in Hnil.
    rewrite length_rev, sort_length, length_rev in Hnil.
    destruct l; [ contradiction | discriminate ].
  - apply Forall_rev, sort_digits, Forall_rev, Hdig.
Qed.

(** ** More on the loop *)

Lemma while_loop_raise (max_steps : Z) (st : loop_state) (e : exn) :
  steps st < max_steps ->
  current_number st <> 6174 ->
  kaprekar_step (current_number st) = Raise e ->
  while_loop max_steps st = Raise e.
Proof.
  intros Hlt Hc Hstep. rewrite while_loop_equation_1.
  destruct (Z_lt_dec (steps st) max_steps) as [Hlt' | Hge]; [ | lia ].
  rewrite while_loop_clause_1_equation_1.
  apply Z.eqb_neq in Hc. rewrite Hc.
  rewrite while_loop_clause_1_clause_2_equation_2, Hstep.
  now rewrite while_loop_clause_1_clause_2_clause_2_equation_2.
Qed.

(** Running up to a larger limit is running up to the smaller one and
    going on from the state reached. *)
Lemma while_loop_resume (m1 m2 : Z) (st : loop_state) :
  m1 <= m2 ->
  while_loop m2 st = (st1 <- while_loop m1 st ;; while_loop m2 st1).
Proof.
  intros Hle. funelim (while_loop m1 st); simpl.
  - reflexivity.
  - reflexivity.
  - rewrite <- (H m2 Hle).
    apply while_loop_pass; [ lia | now apply Z.eqb_neq | assumption ].
  - apply while_loop_raise; [ lia | now apply Z.eqb_neq | assumption ].
Qed.

(** The loop only appends to the sequence. *)
Lemma while_loop_appends (max_steps : Z) (st st' : loop_state) :
  while_loop max_steps st = Ok st' ->
  exists t, sequence st' = sequence st ++ t.
Proof.
  intros Hret.
  destruct (while_loop_invariant
              (fun s => exists t, sequence s = sequence st ++ t) max_steps)
    with (st := st) (st' := st') as [Hinv _].
  - intros s n [t Ht] _ _ _. exists (t ++ [n]). simpl.
    now rewrite Ht, app_assoc.
  - exists []. now rewrite app_nil_r.
  - exact Hret.
  - exact Hinv.
Qed.

(** Reaching the constant after [k] more steps, within the limit. *)
Lemma while_loop_converges (max_steps : Z) (k : nat) :
  forall st,
    iterate_step k (current_number st) = Ok 6174 ->
    steps st + Z.of_nat k <= max_steps ->
    exists st',
      while_loop max_steps st = Ok st' /\
      current_number st' = 6174 /\
      steps st' <= steps st + Z.of_nat k.
Proof.
  induction k as [ | k IH ]; intros st Hiter Hroom.
  - simpl in Hiter. injection Hiter as Hc.
    exists st. split; [ now apply while_loop_break | split; [ exact Hc | lia ] ].
  - destruct (Z.eq_dec (current_number st) 6174) as [Hc | Hc].
    + exists st. split; [ now apply while_loop_break | split; [ exact Hc | lia ] ].
    + change (iterate_step (S k) (current_number st))
        with (m <- kaprekar_step (current_number st) ;; iterate_step k m) in Hiter.
      destruct (kaprekar_step (current_number st)) as [m | e] eqn:Hstep;
        [ | discriminate ].
      simpl in Hiter.
      destruct (IH (advance st m)) as (st' & Hloop & Hc' & Hsteps).
      * exact Hiter.
      * simpl. lia.
      * exists st'. rewrite (while_loop_pass max_steps st m) by (lia || assumption).
        split; [ exact Hloop | split; [ exact Hc' | simpl in Hsteps; lia ] ].
Qed.

(** From a state whose current number is 0, the loop appends zeros until
    the limit. *)
Lemma while_loop_zero (max_steps : Z) (k : nat) :
  forall st,
    current_number st = 0 ->
    Z.of_nat k = max_steps - steps st ->
    while_loop max_steps st
    = Ok {| sequence := sequence st ++ repeat 0 k;
            current_number := 0;
            steps := max_steps |}.
Proof.
  induction k as [ | k IH ]; intros st Hc Hk.
  - rewrite while_loop_exit by lia. simpl. rewrite app_nil_r.
    destruct st as [l c s]. simpl in *. subst c.
    replace s with max_steps by lia. reflexivity.
  - rewrite (while_loop_pass max_steps st 0); try lia.
    + rewrite (IH (advance st 0)); [ | reflexivity | simpl; lia ].
      simpl. now rewrite <- app_assoc.
    + rewrite Hc. vm_compute. reflexivity.
Qed.

Lemma iterate_step_succ (k : nat) (n x y : Z) :
  iterate_step k n = Ok x ->
  kaprekar_step x = Ok y ->
  iterate_step (S k) n = Ok y.
Proof.
  revert n. induction k as [ | k IH ]; intros n Hx Hy.
  - simpl in Hx. injection Hx as ->.
    change (iterate_step 1 x) with (m <- kaprekar_step x ;; Ok m).
    now rewrite Hy.
  - change (iterate_step (S k) n)
      with (m <- kaprekar_step n ;; iterate_step k m) in Hx.
    change (iterate_step (S (S k)) n)
      with (m <- kaprekar_step n ;; iterate_step (S k) m).
    destruct (kaprekar_step n) as [m | e]; [ | discriminate ].
    simpl bind in *. now apply IH.
Qed.


(** ** One step on the numbers below 10000, in detail *)

Lemma step_facts_all : forall_below step_facts (Z.to_nat 10000) = true.
Proof. vm_compute. reflexivity. Qed.

Lemma step_image_converges : forallb reaches_constant step_image = true.
Proof. vm_compute. reflexivity. Qed.

Lemma step_facts_spec (n : Z) :
  0 <= n <= 9999 ->
  exists r,
    kaprekar_step n = Ok r /\
    r = arithmetic_step n /\
    In r step_image /\
    (r = 0 <-> same_digits n = true) /\
    (r = n -> n = 0 \/ n = 6174).
Proof.
  intros Hn.
  assert (Hall : step_facts n = true).
  { apply (forall_below_spec _ _ step_facts_all). lia. }
  unfold step_facts in Hall.
  destruct (kaprekar_step n) as [r | e]; [ | discriminate ].
  apply andb_prop in Hall as [Hall Hfix].
  apply andb_prop in Hall as [Hall Hzero].
  apply andb_prop in Hall as [Harith Himg].
  exists r. split; [ reflexivity | ].
  split; [ now apply Z.eqb_eq | ].
  split.
  { apply existsb_exists in Himg as (x & Hin & Hx).
    apply Z.eqb_eq in Hx. now subst x. }
  split.
  { apply Bool.eqb_prop in Hzero. rewrite <- Hzero. symmetry. apply Z.eqb_eq. }
  intros Hrn. apply Z.eqb_eq in Hrn. rewrite Hrn in Hfix. simpl in Hfix.
  apply orb_prop in Hfix as [H0 | H6]; [ left | right ]; now apply Z.eqb_eq.
Qed.

Lemma same_digits_spec (v : Z) :
  same_digits v = true <-> Forall (fun d => d = v mod 10) (decimal_digits v).
Proof.
  unfold same_digits. rewrite forallb_forall, Forall_forall.
  split; intros H d Hd; specialize (H d Hd).
  - apply Z.eqb_eq in H. congruence.
  - apply Z.eqb_eq. congruence.
Qed.

Lemma distinct_not_same (v : Z) :
  NoDup (decimal_digits v) -> same_digits v = false.
Proof.
  intros Hnd. apply not_true_iff_false. intros Hsame.
  apply same_digits_spec in Hsame. unfold decimal_digits in *.
  inversion Hsame as [ | ? ? Ha Hrest ]; subst.
  inversion Hrest as [ | ? ? Hb _ ]; subst.
  inversion Hnd as [ | ? ? Hnotin _ ]; subst.
  apply Hnotin. left. congruence.
Qed.

Lemma descending_permutation (l l' : list Z) :
  Permutation l l' -> descending l = descending l'.
Proof.
  intros Hp. unfold descending.
  apply flat_map_ext. intros d.
  now rewrite (proj1 (Permutation_count_occ Z.eq_dec l l') Hp d).
Qed.

(** Seven steps take every number below 10000 whose digits are not all
    the same to 6174. *)
Lemma seven_steps (n : Z) :
  0 <= n <= 9999 ->
  same_digits n = false ->
  iterate_step 7 n = Ok 6174.
Proof.
  intros Hn Hdiff.
  destruct (step_facts_spec n Hn) as (r & Hr & _ & Himg & Hzero & _).
  change (iterate_step 7 n) with (m <- kaprekar_step n ;; iterate_step 6 m).
  rewrite Hr. change (iterate_step 6 r = Ok 6174).
  pose proof step_image_converges as Hconv.
  rewrite forallb_forall in Hconv. specialize (Hconv r Himg).
  unfold reaches_constant in Hconv.
  apply orb_prop in Hconv as [H0 | H6].
  - apply Z.eqb_eq in H0. apply Hzero in H0. congruence.
  - destruct (iterate_step 6 r) as [m | e]; [ | discriminate ].
    apply Z.eqb_eq in H6. now subst m.
Qed.

Lemma validate_input_accepted_distinct (number_str : string) (v : Z) :
  validate_input number_str = Accepted v -> NoDup (decimal_digits v).
Proof.
  intros Hacc.
  destruct (validate_input_accepted number_str v Hacc) as [Hint Hrange].
  apply (digit_test v Hrange).
  unfold validate_input in Hacc. rewrite Hint in Hacc.
  destruct ((v <? 1000) || (v >? 9999)); [ discriminate | ].
  destruct (Py.len (Py.set (Py.list (Py.zfill 4 (Py.str v)))) =? 4);
    [ reflexivity | discriminate ].
Qed.

(** A start below 10000 whose digits are not all the same, under a limit
    of 7 or more. *)
Lemma run_converges (starting_number max_steps : Z) :
  0 <= starting_number <= 9999 ->
  same_digits starting_number = false ->
  7 <= max_steps ->
  exists n l,
    explore_kaprekar starting_number max_steps = Ok (n, l, true) /\
    0 <= n <= 7 /\ last l 0 = 6174.
Proof.
  intros Hstart Hsame Hmax.
  destruct (while_loop_converges max_steps 7 (initial starting_number))
    as (st' & Hloop & Hc & Hsteps).
  - now apply seven_steps.
  - simpl. lia.
  - exists (steps st'), (sequence st').
    rewrite explore_kaprekar_unfold, Hloop. simpl.
    apply Z.eqb_eq in Hc as Hcb. rewrite Hcb.
    pose proof (run_invariant_final _ _ _ Hloop)
      as [(_ & _ & [front Hl] & Hlen) _].
    split; [ reflexivity | split ].
    + simpl in Hsteps. unfold Py.len in Hlen.
      rewrite Hl, length_app in Hlen. simpl in Hlen. lia.
    + rewrite Hl, last_last. exact Hc.
Qed.

(** ** The rows of the table *)




(** ** The validator *)

(** X1: the validator accepts a text with the value v exactly when the
    text parses to v, v lies from 1000 to 9999 and its four decimal
    digits are pairwise distinct. *)
Theorem validate_input_accepts_iff (number_str : string) (v : Z) :
  validate_input number_str = Accepted v <->
  Py.int number_str = Ok v /\ 1000 <= v <= 9999 /\ NoDup (decimal_digits v).
Proof.
  split.
  - intros Hacc.
    destruct (validate_input_accepted number_str v Hacc) as [Hint Hrange].
    split; [ exact Hint | split; [ exact Hrange | ] ].
    now apply (validate_input_accepted_distinct number_str).
  - intros (Hint & Hrange & Hnd). unfold validate_input. rewrite Hint.
    assert (Hin : (v <? 1000) || (v >? 9999) = false).
    { apply orb_false_iff. rewrite Z.gtb_ltb, !Z.ltb_ge. lia. }
    rewrite Hin. apply (digit_test v Hrange) in Hnd. now rewrite Hnd.
Qed.

(** X2: the result of the validator has one of four shapes: one of the
    three error tuples, with no number, or [(True, None, number)]; so a
    number is present exactly when [is_valid] is true, and a message
    exactly when it is false. *)
Theorem validate_input_shape (number_str : string) :
  validate_input number_str = NotANumber \/
  validate_input number_str = WrongDigitCount \/
  validate_input number_str = RepeatedDigits \/
  exists v, validate_input number_str = Accepted v.
Proof.
  unfold validate_input.
  destruct (Py.int number_str) as [v | [] ]; [ | now left ].
  destruct ((v <? 1000) || (v >? 9999)); [ now right; left | ].
  destruct (Py.len (Py.set (Py.list (Py.zfill 4 (Py.str v)))) =? 4); simpl.
  - right; right; right. now exists v.
  - now right; right; left.
Qed.

(** ** The step transform *)


(** X4: on the numbers from 0 to 9999 [kaprekar_step] is the arithmetic
    transform: the largest arrangement of the four decimal digits minus
    the smallest. *)
Theorem kaprekar_step_arithmetic (n : Z) :
  0 <= n <= 9999 ->
  kaprekar_step n = Ok (arithmetic_step n).
Proof.
  intros Hn. destruct (step_facts_spec n Hn) as (r & Hr & Harith & _).
  now rewrite Hr, Harith.
Qed.

Lemma kaprekar_step_arithmetic_witness :
  arithmetic_step 3524 = 5432 - 2345 /\
  kaprekar_step 3524 = Ok (arithmetic_step 3524).
Proof.
  split; [ reflexivity | ].
  apply (kaprekar_step_arithmetic 3524). lia.
Defined.

(** X5: the order of the digits does not matter: two numbers from 0 to
    9999 with the same four digits in any order have the same step. *)
Theorem kaprekar_step_permutation (n m : Z) :
  0 <= n <= 9999 ->
  0 <= m <= 9999 ->
  Permutation (decimal_digits n) (decimal_digits m) ->
  kaprekar_step n = kaprekar_step m.
Proof.
  intros Hn Hm Hp.
  destruct (step_facts_spec n Hn) as (r & Hr & Harith & _).
  destruct (step_facts_spec m Hm) as (r' & Hr' & Harith' & _).
  rewrite Hr, Hr', Harith, Harith'. unfold arithmetic_step.
  now rewrite (descending_permutation _ _ Hp).
Qed.

Lemma kaprekar_step_permutation_witness :
  kaprekar_step 3524 = kaprekar_step 4253.
Proof.
  apply (kaprekar_step_permutation 3524 4253); [ lia | lia | ].
  change (Permutation [3; 5; 2; 4] [4; 2; 5; 3]).
  apply perm_trans with [5; 3; 2; 4]; [ apply perm_swap | ].
  apply perm_trans with [5; 2; 3; 4]; [ apply perm_skip, perm_swap | ].
  apply perm_trans with [2; 5; 3; 4]; [ apply perm_swap | ].
  apply perm_trans with [2; 5; 4; 3];
    [ apply perm_skip, perm_skip, perm_swap | ].
  apply perm_trans with [2; 4; 5; 3]; [ apply perm_skip, perm_swap | ].
  apply perm_swap.
Defined.

(** X6: among the numbers from 0 to 9999 the step transform fixes 0 and
    6174 and nothing else. *)
Theorem kaprekar_step_fixed_points (n : Z) :
  0 <= n <= 9999 ->
  kaprekar_step n = Ok n <-> n = 0 \/ n = 6174.
Proof.
  intros Hn. destruct (step_facts_spec n Hn) as (r & Hr & _ & _ & _ & Hfix).
  split.
  - intros Hnn. apply Hfix. congruence.
  - intros [-> | ->]; vm_compute; reflexivity.
Qed.

Lemma kaprekar_step_fixed_points_witness :
  kaprekar_step 0 = Ok 0 <-> 0 = 0 \/ 0 = 6174.
Proof. apply (kaprekar_step_fixed_points 0). lia. Defined.

(** X7: a number from 0 to 9999 steps to 0 exactly when its four decimal
    digits are all the same. *)
Theorem kaprekar_step_zero (n : Z) :
  0 <= n <= 9999 ->
  kaprekar_step n = Ok 0 <->
  Forall (fun d => d = n mod 10) (decimal_digits n).
Proof.
  intros Hn. destruct (step_facts_spec n Hn) as (r & Hr & _ & _ & Hzero & _).
  rewrite <- same_digits_spec, <- Hzero, Hr.
  split; intros H; [ now injection H | now subst r ].
Qed.

Lemma kaprekar_step_zero_witness :
  kaprekar_step 7777 = Ok 0 <->
  Forall (fun d => d = 7777 mod 10) (decimal_digits 7777).
Proof. apply (kaprekar_step_zero 7777). lia. Defined.

(** ** Runs of the engine *)

(** X8: with a limit of zero or less the loop body never runs, whatever
    the start: the result is 0 steps and the sequence [start], and the
    flag says whether the start is 6174 itself. *)
Theorem explore_without_steps (starting_number max_steps : Z) :
  max_steps <= 0 ->
  explore_kaprekar starting_number max_steps
  = Ok (0, [starting_number], starting_number =? 6174).
Proof.
  intros Hmax.
  rewrite explore_kaprekar_unfold, while_loop_exit by (simpl; lia).
  reflexivity.
Qed.

Lemma explore_without_steps_witness :
  explore_kaprekar (-5) (-3) = Ok (0, [-5], false).
Proof. apply (explore_without_steps (-5) (-3)). lia. Defined.

(** X9: from a negative start, with a positive limit, the first step
    raises [ValueError], and so does the run. *)
Theorem explore_negative_start (starting_number max_steps : Z) :
  starting_number < 0 ->
  0 < max_steps ->
  explore_kaprekar starting_number max_steps = Raise ValueError.
Proof.
  intros Hneg Hmax.
  rewrite explore_kaprekar_unfold,
    (while_loop_raise max_steps (initial starting_number) ValueError).
  - reflexivity.
  - exact Hmax.
  - simpl. lia.
  - apply kaprekar_step_of_negative. exact Hneg.
Qed.

Lemma explore_negative_start_witness :
  explore_kaprekar (-1234) 50 = Raise ValueError.
Proof. apply (explore_negative_start (-1234) 50); lia. Defined.

(** X10: a run that returns never took more steps than a non-negative
    limit allows, and one that did not reach 6174 took exactly
    [max_steps] steps. *)
Theorem explore_step_count
  (starting_number max_steps n : Z) (l : list Z) (reached : bool) :
  0 <= max_steps ->
  explore_kaprekar starting_number max_steps = Ok (n, l, reached) ->
  0 <= n <= max_steps /\ (reached = false -> n = max_steps).
Proof.
  intros Hmax Hret.
  apply explore_kaprekar_returned in Hret as (st' & Hloop & -> & _ & ->).
  destruct (while_loop_invariant (fun st => 0 <= steps st <= max_steps) max_steps)
    with (st := initial starting_number) (st' := st') as [Hinv Hend].
  - intros st m Hst Hlt _ _. simpl. lia.
  - simpl. lia.
  - exact Hloop.
  - split; [ exact Hinv | ].
    intros Hc. apply Z.eqb_neq in Hc. destruct Hend as [Hend | Hend]; lia.
Qed.

Lemma explore_step_count_witness :
  0 <= 2 <= 2 /\ (false = false -> 2 = 2).
Proof.
  apply (explore_step_count 1234 2 2 [1234; 3087; 8352] false);
    [ lia | vm_compute; reflexivity ].
Defined.

(** X11: 6174 can only be the last element of the sequence a run returns:
    the loop stops as soon as it gets there. *)
Theorem explore_constant_only_last
  (starting_number max_steps n : Z) (l : list Z) (reached : bool) :
  explore_kaprekar starting_number max_steps = Ok (n, l, reached) ->
  exists front final,
    l = front ++ [final] /\ Forall (fun x => x <> 6174) front.
Proof.
  intros Hret.
  apply explore_kaprekar_returned in Hret as (st' & Hloop & _ & -> & _).
  destruct (while_loop_invariant
              (fun st => exists front,
                   sequence st = front ++ [current_number st] /\
                   Forall (fun x => x <> 6174) front) max_steps)
    with (st := initial starting_number) (st' := st') as [(front & Hl & Hf) _].
  - intros st m (front & Hl & Hf) _ Hc _. exists (sequence st).
    split; [ reflexivity | ].
    rewrite Hl. apply Forall_app. split; [ exact Hf | ].
    constructor; [ exact Hc | constructor ].
  - exists []. split; [ reflexivity | constructor ].
  - exact Hloop.
  - now exists front, (current_number st').
Qed.

Lemma explore_constant_only_last_witness :
  exists front final,
    [3524; 3087; 8352; 6174] = front ++ [final] /\
    Forall (fun x => x <> 6174) front.
Proof.
  apply (explore_constant_only_last 3524 50 3 [3524; 3087; 8352; 6174] true).
  vm_compute. reflexivity.
Defined.

(** X12: the element at index i of the sequence a run returns is the
    start after i applications of [kaprekar_step]. *)
Theorem explore_elements_are_iterates
  (starting_number max_steps n : Z) (l : list Z) (reached : bool) :
  explore_kaprekar starting_number max_steps = Ok (n, l, reached) ->
  forall (i : nat) (x : Z),
    nth_error l i = Some x -> iterate_step i starting_number = Ok x.
Proof.
  intros Hret.
  apply explore_kaprekar_returned in Hret as (st' & Hloop & _ & -> & _).
  apply run_invariant_final in Hloop as [(Hhd & Hchain & _ & _) _].
  induction i as [ | i IH ]; intros x Hx.
  - destruct (sequence st') as [ | a l ]; [ discriminate | ].
    simpl in *. congruence.
  - assert (Hprev : exists w, nth_error (sequence st') i = Some w).
    { destruct (nth_error (sequence st') i) as [w | ] eqn:Hw; [ now exists w | ].
      apply nth_error_None in Hw.
      assert (Hsome : nth_error (sequence st') (S i) <> None) by congruence.
      apply nth_error_Some in Hsome. lia. }
    destruct Hprev as [w Hw].
    apply (iterate_step_succ i starting_number w x (IH w Hw)).
    exact (Hchain i w x Hw Hx).
Qed.

Lemma explore_elements_are_iterates_witness :
  nth_error [3524; 3087; 8352; 6174] 2 = Some 8352 /\
  iterate_step 2 3524 = Ok 8352.
Proof.
  split; [ reflexivity | ].
  apply (explore_elements_are_iterates 3524 50 3 [3524; 3087; 8352; 6174] true).
  - vm_compute. reflexivity.
  - reflexivity.
Defined.

(** X13: raising the limit only extends a run: the sequence returned under
    the smaller limit is a prefix of the one returned under the larger,
    and a run that had reached 6174 is returned unchanged. *)
Theorem explore_larger_limit
  (starting_number m1 m2 n1 n2 : Z) (l1 l2 : list Z) (r1 r2 : bool) :
  m1 <= m2 ->
  explore_kaprekar starting_number m1 = Ok (n1, l1, r1) ->
  explore_kaprekar starting_number m2 = Ok (n2, l2, r2) ->
  (exists t, l2 = l1 ++ t) /\
  (r1 = true -> (n2, l2, r2) = (n1, l1, r1)).
Proof.
  intros Hle H1 H2.
  apply explore_kaprekar_returned in H1 as (st1 & Hloop1 & -> & -> & ->).
  apply explore_kaprekar_returned in H2 as (st2 & Hloop2 & -> & -> & ->).
  rewrite (while_loop_resume m1 m2 _ Hle), Hloop1 in Hloop2.
  simpl in Hloop2. split.
  - now apply (while_loop_appends m2).
  - intros Hc. apply Z.eqb_eq in Hc.
    rewrite (while_loop_break m2 st1 Hc) in Hloop2.
    injection Hloop2 as <-. reflexivity.
Qed.

Lemma explore_larger_limit_witness :
  (exists t, [1234; 3087; 8352; 6174] = [1234; 3087; 8352] ++ t) /\
  (false = true ->
   (3, [1234; 3087; 8352; 6174], true) = (2, [1234; 3087; 8352], false)).
Proof.
  apply (explore_larger_limit 1234 2 50);
    [ lia | vm_compute; reflexivity | vm_compute; reflexivity ].
Defined.

(** X14: from any start from 0 to 9999, valid or not, and under any
    limit, the run returns, and every element of its sequence lies from
    0 to 9999. *)
Theorem explore_stays_in_range (starting_number max_steps : Z) :
  0 <= starting_number <= 9999 ->
  exists n l reached,
    explore_kaprekar starting_number max_steps = Ok (n, l, reached) /\
    Forall (fun x => 0 <= x <= 9999) l.
Proof.
  intros Hstart.
  set (Inv := fun st : loop_state =>
                0 <= current_number st <= 9999 /\
                Forall (fun x => 0 <= x <= 9999) (sequence st)).
  assert (Hpass : forall st m,
             Inv st -> steps st < max_steps -> current_number st <> 6174 ->
             kaprekar_step (current_number st) = Ok m ->
             Inv (advance st m)).
  { intros st m [Hcur Hall] _ _ Hstep.
    destruct (kaprekar_step_range _ Hcur) as (r & Hr & Hrange).
    assert (m = r) by congruence. subst r. split; simpl.
    - exact Hrange.
    - apply Forall_app. split; [ exact Hall | ].
      constructor; [ exact Hrange | constructor ]. }
  assert (Hinit : Inv (initial starting_number)).
  { split; simpl; [ exact Hstart | ].
    constructor; [ exact Hstart | constructor ]. }
  destruct (while_loop_returns Inv max_steps Hpass)
    with (st := initial starting_number) as [st' Hst'].
  - intros st [Hcur _] _ _.
    destruct (kaprekar_step_range _ Hcur) as (r & Hr & _). now exists r.
  - exact Hinit.
  - exists (steps st'), (sequence st'), (current_number st' =? 6174).
    rewrite explore_kaprekar_unfold, Hst'. split; [ reflexivity | ].
    now apply (while_loop_invariant Inv max_steps Hpass
                 (initial starting_number) st').
Qed.

Lemma explore_stays_in_range_witness :
  exists n l reached,
    explore_kaprekar 1111 3 = Ok (n, l, reached) /\
    Forall (fun x => 0 <= x <= 9999) l.
Proof. apply (explore_stays_in_range 1111 3). lia. Defined.

(** X15: every start from 0 to 9999 whose four decimal digits are not all
    the same reaches 6174 in at most 7 steps, under any limit of 7 or
    more. *)
Theorem explore_converges (starting_number max_steps : Z) :
  0 <= starting_number <= 9999 ->
  ~ Forall (fun d => d = starting_number mod 10)
      (decimal_digits starting_number) ->
  7 <= max_steps ->
  exists n l,
    explore_kaprekar starting_number max_steps = Ok (n, l, true) /\
    0 <= n <= 7 /\ last l 0 = 6174.
Proof.
  intros Hstart Hdiff Hmax. apply run_converges; try assumption.
  apply not_true_iff_false. intros Hs. now apply same_digits_spec in Hs.
Qed.

Lemma explore_converges_witness :
  exists n l,
    explore_kaprekar 1000 7 = Ok (n, l, true) /\
    0 <= n <= 7 /\ last l 0 = 6174.
Proof.
  apply (explore_converges 1000 7); [ lia | | lia ].
  intros Hsame. apply same_digits_spec in Hsame. discriminate.
Defined.

(** X16: whatever text the validator accepts, the run that [main] then
    starts, with the default limit of 50, reaches 6174 in at most 7
    steps: it never raises and never ends at the step limit. *)
Theorem accepted_input_converges (number_str : string) (number : Z) :
  validate_input number_str = Accepted number ->
  exists n l,
    explore_kaprekar number default_max_steps = Ok (n, l, true) /\
    0 <= n <= 7 /\ last l 0 = 6174.
Proof.
  intros Hacc.
  destruct (validate_input_accepted number_str number Hacc) as [_ Hrange].
  apply run_converges; [ lia | | unfold default_max_steps; lia ].
  apply distinct_not_same.
  now apply (validate_input_accepted_distinct number_str).
Qed.

Lemma accepted_input_converges_witness :
  exists n l,
    explore_kaprekar 3524 default_max_steps = Ok (n, l, true) /\
    0 <= n <= 7 /\ last l 0 = 6174.
Proof. apply (accepted_input_converges " +3_524 " 3524). reflexivity. Defined.

(** X17: a start from 0 to 9999 with four equal digits never reaches 6174:
    its first step gives 0, every later step gives 0 again, and the run
    ends at the limit with [max_steps] steps. *)
Theorem explore_equal_digits (starting_number max_steps : Z) :
  0 <= starting_number <= 9999 ->
  Forall (fun d => d = starting_number mod 10)
    (decimal_digits starting_number) ->
  0 <= max_steps ->
  explore_kaprekar starting_number max_steps
  = Ok (max_steps, starting_number :: repeat 0 (Z.to_nat max_steps), false).
Proof.
  intros Hstart Hsame Hmax.
  apply same_digits_spec in Hsame.
  destruct (step_facts_spec _ Hstart) as (r & Hr & _ & _ & Hzero & _).
  apply Hzero in Hsame. subst r. rename Hr into Hsame.
  rewrite explore_kaprekar_unfold.
  destruct (Z.eq_dec max_steps 0) as [-> | Hpos].
  - rewrite while_loop_exit by (simpl; lia). simpl.
    assert (Hne : starting_number <> 6174).
    { intros ->. vm_compute in Hsame. discriminate. }
    apply Z.eqb_neq in Hne. now rewrite Hne.
  - assert (Hne : starting_number <> 6174).
    { intros ->. vm_compute in Hsame. discriminate. }
    rewrite (while_loop_pass max_steps (initial starting_number) 0);
      [ | simpl; lia | exact Hne | exact Hsame ].
    rewrite (while_loop_zero max_steps (Z.to_nat (max_steps - 1)));
      [ | reflexivity | simpl; lia ].
    simpl. replace (Z.to_nat max_steps) with (S (Z.to_nat (max_steps - 1))) by lia.
    reflexivity.
Qed.

Lemma explore_equal_digits_witness :
  explore_kaprekar 7777 3 = Ok (3, 7777 :: repeat 0 (Z.to_nat 3), false).
Proof.
  apply (explore_equal_digits 7777 3); [ lia | | lia ].
  apply same_digits_spec. reflexivity.
Defined.

(** ** The table of [display_results] *)


